(** * mip/protection/protection_engine.h

    A shallow embedding of the inline code of the [ProtectionEngine] header:
    the [ProtectionEngine::Settings] value class (two constructors, getters
    and setters), the default bodies of the [ProtectionEngine::Observer]
    callbacks, and the table of member functions the header declares.

    The header includes [mip/common_types.h], [mip/mip_namespace.h] and other
    headers for [Identity], [Cloud], [AuthDelegate], [TemplateDescriptor],
    [DelegationLicense] and the [UNUSED] macro; what it needs from them is
    taken as section variables. *)

From stdpp Require Import base strings list gmap.

Local Open Scope string_scope.

(** ** C++ library types *)

(** A [std::shared_ptr<T>] is modelled by the address it holds, [None] being
    the empty (null) pointer.  Two shared pointers compare equal exactly when
    they hold the same address; [T] only indexes the type. *)
Definition shared_ptr (T : Type) : Type := option N.

Definition nullptr {T : Type} : shared_ptr T := None.

(** [std::exception_ptr]: an opaque, nullable handle on an exception object. *)
Definition exception_ptr : Type := option N.

(** The pointee of [std::shared_ptr<void>]. *)
Definition void : Type := unit.

(** How a call ends: it returns a value or leaves by an exception. *)
Inductive Completion (A : Type) : Type :=
| Returns (a : A)
| Throws (e : exception_ptr).
Arguments Returns {A} a.
Arguments Throws {A} e.

(** A statement run against a program state [W]. *)
Definition Stmt (W A : Type) : Type := W -> Completion A * W.

Definition Stmt_ret (W : Type) : MRet (Stmt W) :=
  fun A (a : A) w => (Returns a, w).

Definition Stmt_bind (W : Type) : MBind (Stmt W) :=
  fun A B (k : A -> Stmt W B) (c : Stmt W A) w =>
    match c w with
    | (Returns a, w') => k a w'
    | (Throws e, w') => (Throws e, w')
    end.

#[export] Existing Instances Stmt_ret Stmt_bind.

Section Header.

(** ** What the header takes from the headers it includes *)

(** [mip::Identity], a class with a default constructor, copied by value. *)
Variable Identity : Type.
(** The value [Identity()] builds. *)
Variable Identity_default : Identity.
(** [mip::Cloud], an enumeration, and its enumerator [Cloud::Unknown]. *)
Variable Cloud : Type.
Variable Cloud_Unknown : Cloud.
(** Classes the header only points to. *)
Variable AuthDelegate : Type.
Variable TemplateDescriptor : Type.
Variable DelegationLicense : Type.

(** ** ProtectionEngine::Settings *)

(** The private data members, in declaration order. *)
Record Settings : Type := mkSettings {
  mEngineId : string;
  mIdentity : Identity;
  mCloud : Cloud;
  mAuthDelegate : shared_ptr AuthDelegate;
  mClientData : string;
  mCustomSettings : list (string * string);
  mCloudEndpointBaseUrl : string;
  mLocale : string;
  mSessionId : string;
  mUnderlyingApplicationId : string;
  mAllowCloudServiceOnly : bool
}.

(** The default argument [locale = "en-US"] of both constructors: [None]
    stands for a call that omits the argument. *)
Definition locale_argument (locale : option string) : string :=
  match locale with
  | Some l => l
  | None => "en-US"
  end.

(** [Settings(identity, authDelegate, clientData, locale)], for a new engine.
    Members absent from the initializer list are default-initialized:
    strings and the vector are empty, [mCloud] takes its member initializer
    [Cloud::Unknown]. *)
Definition Settings_ctor_identity
    (identity : Identity)
    (authDelegate : shared_ptr AuthDelegate)
    (clientData : string)
    (locale : option string) : Settings :=
  {| mEngineId := "";
     mIdentity := identity;
     mCloud := Cloud_Unknown;
     mAuthDelegate := authDelegate;
     mClientData := clientData;
     mCustomSettings := [];
     mCloudEndpointBaseUrl := "";
     mLocale := locale_argument locale;
     mSessionId := "";
     mUnderlyingApplicationId := "";
     mAllowCloudServiceOnly := false |}.

(** [Settings(engineId, authDelegate, clientData, locale)], for loading an
    existing engine; [mIdentity] is default-constructed. *)
Definition Settings_ctor_engineId
    (engineId : string)
    (authDelegate : shared_ptr AuthDelegate)
    (clientData : string)
    (locale : option string) : Settings :=
  {| mEngineId := engineId;
     mIdentity := Identity_default;
     mCloud := Cloud_Unknown;
     mAuthDelegate := authDelegate;
     mClientData := clientData;
     mCustomSettings := [];
     mCloudEndpointBaseUrl := "";
     mLocale := locale_argument locale;
     mSessionId := "";
     mUnderlyingApplicationId := "";
     mAllowCloudServiceOnly := false |}.

(** Getters return the member; setters return the object with the one member
    assigned. *)

Definition GetEngineId (this : Settings) : string := mEngineId this.

Definition SetEngineId (this : Settings) (engineId : string) : Settings :=
  {| mEngineId := engineId;
     mIdentity := mIdentity this;
     mCloud := mCloud this;
     mAuthDelegate := mAuthDelegate this;
     mClientData := mClientData this;
     mCustomSettings := mCustomSettings this;
     mCloudEndpointBaseUrl := mCloudEndpointBaseUrl this;
     mLocale := mLocale this;
     mSessionId := mSessionId this;
     mUnderlyingApplicationId := mUnderlyingApplicationId this;
     mAllowCloudServiceOnly := mAllowCloudServiceOnly this |}.

Definition GetIdentity (this : Settings) : Identity := mIdentity this.

Definition SetIdentity (this : Settings) (identity : Identity) : Settings :=
  {| mEngineId := mEngineId this;
     mIdentity := identity;
     mCloud := mCloud this;
     mAuthDelegate := mAuthDelegate this;
     mClientData := mClientData this;
     mCustomSettings := mCustomSettings this;
     mCloudEndpointBaseUrl := mCloudEndpointBaseUrl this;
     mLocale := mLocale this;
     mSessionId := mSessionId this;
     mUnderlyingApplicationId := mUnderlyingApplicationId this;
     mAllowCloudServiceOnly := mAllowCloudServiceOnly this |}.

Definition GetClientData (this : Settings) : string := mClientData this.

Definition SetClientData (this : Settings) (clientData : string) : Settings :=
  {| mEngineId := mEngineId this;
     mIdentity := mIdentity this;
     mCloud := mCloud this;
     mAuthDelegate := mAuthDelegate this;
     mClientData := clientData;
     mCustomSettings := mCustomSettings this;
     mCloudEndpointBaseUrl := mCloudEndpointBaseUrl this;
     mLocale := mLocale this;
     mSessionId := mSessionId this;
     mUnderlyingApplicationId := mUnderlyingApplicationId this;
     mAllowCloudServiceOnly := mAllowCloudServiceOnly this |}.

Definition GetLocale (this : Settings) : string := mLocale this.

Definition SetCustomSettings (this : Settings)
    (value : list (string * string)) : Settings :=
  {| mEngineId := mEngineId this;
     mIdentity := mIdentity this;
     mCloud := mCloud this;
     mAuthDelegate := mAuthDelegate this;
     mClientData := mClientData this;
     mCustomSettings := value;
     mCloudEndpointBaseUrl := mCloudEndpointBaseUrl this;
     mLocale := mLocale this;
     mSessionId := mSessionId this;
     mUnderlyingApplicationId := mUnderlyingApplicationId this;
     mAllowCloudServiceOnly := mAllowCloudServiceOnly this |}.

Definition GetCustomSettings (this : Settings) : list (string * string) :=
  mCustomSettings this.

Definition SetSessionId (this : Settings) (sessionId : string) : Settings :=
  {| mEngineId := mEngineId this;
     mIdentity := mIdentity this;
     mCloud := mCloud this;
     mAuthDelegate := mAuthDelegate this;
     mClientData := mClientData this;
     mCustomSettings := mCustomSettings this;
     mCloudEndpointBaseUrl := mCloudEndpointBaseUrl this;
     mLocale := mLocale this;
     mSessionId := sessionId;
     mUnderlyingApplicationId := mUnderlyingApplicationId this;
     mAllowCloudServiceOnly := mAllowCloudServiceOnly this |}.

Definition GetSessionId (this : Settings) : string := mSessionId this.

Definition SetCloud (this : Settings) (cloud : Cloud) : Settings :=
  {| mEngineId := mEngineId this;
     mIdentity := mIdentity this;
     mCloud := cloud;
     mAuthDelegate := mAuthDelegate this;
     mClientData := mClientData this;
     mCustomSettings := mCustomSettings this;
     mCloudEndpointBaseUrl := mCloudEndpointBaseUrl this;
     mLocale := mLocale this;
     mSessionId := mSessionId this;
     mUnderlyingApplicationId := mUnderlyingApplicationId this;
     mAllowCloudServiceOnly := mAllowCloudServiceOnly this |}.

Definition GetCloud (this : Settings) : Cloud := mCloud this.

Definition SetCloudEndpointBaseUrl (this : Settings)
    (cloudEndpointBaseUrl : string) : Settings :=
  {| mEngineId := mEngineId this;
     mIdentity := mIdentity this;
     mCloud := mCloud this;
     mAuthDelegate := mAuthDelegate this;
     mClientData := mClientData this;
     mCustomSettings := mCustomSettings this;
     mCloudEndpointBaseUrl := cloudEndpointBaseUrl;
     mLocale := mLocale this;
     mSessionId := mSessionId this;
     mUnderlyingApplicationId := mUnderlyingApplicationId this;
     mAllowCloudServiceOnly := mAllowCloudServiceOnly this |}.

Definition GetCloudEndpointBaseUrl (this : Settings) : string :=
  mCloudEndpointBaseUrl this.

Definition SetAuthDelegate (this : Settings)
    (authDelegate : shared_ptr AuthDelegate) : Settings :=
  {| mEngineId := mEngineId this;
     mIdentity := mIdentity this;
     mCloud := mCloud this;
     mAuthDelegate := authDelegate;
     mClientData := mClientData this;
     mCustomSettings := mCustomSettings this;
     mCloudEndpointBaseUrl := mCloudEndpointBaseUrl this;
     mLocale := mLocale this;
     mSessionId := mSessionId this;
     mUnderlyingApplicationId := mUnderlyingApplicationId this;
     mAllowCloudServiceOnly := mAllowCloudServiceOnly this |}.

Definition GetAuthDelegate (this : Settings) : shared_ptr AuthDelegate :=
  mAuthDelegate this.

Definition GetUnderlyingApplicationId (this : Settings) : string :=
  mUnderlyingApplicationId this.

Definition SetUnderlyingApplicationId (this : Settings)
    (underlyingApplicationId : string) : Settings :=
  {| mEngineId := mEngineId this;
     mIdentity := mIdentity this;
     mCloud := mCloud this;
     mAuthDelegate := mAuthDelegate this;
     mClientData := mClientData this;
     mCustomSettings := mCustomSettings this;
     mCloudEndpointBaseUrl := mCloudEndpointBaseUrl this;
     mLocale := mLocale this;
     mSessionId := mSessionId this;
     mUnderlyingApplicationId := underlyingApplicationId;
     mAllowCloudServiceOnly := mAllowCloudServiceOnly this |}.

Definition GetAllowCloudServiceOnly (this : Settings) : bool :=
  mAllowCloudServiceOnly this.

Definition SetAllowCloudServiceOnly (this : Settings)
    (allowCloudServiceOnly : bool) : Settings :=
  {| mEngineId := mEngineId this;
     mIdentity := mIdentity this;
     mCloud := mCloud this;
     mAuthDelegate := mAuthDelegate this;
     mClientData := mClientData this;
     mCustomSettings := mCustomSettings this;
     mCloudEndpointBaseUrl := mCloudEndpointBaseUrl this;
     mLocale := mLocale this;
     mSessionId := mSessionId this;
     mUnderlyingApplicationId := mUnderlyingApplicationId this;
     mAllowCloudServiceOnly := allowCloudServiceOnly |}.

(** *** The members by name

    [Field] names the eleven data members, [getter] the accessor of each;
    [Setter] names the ten setters (there is no [SetLocale]) and [target] the
    member each one assigns. *)

Inductive Field : Type :=
| fEngineId | fIdentity | fCloud | fAuthDelegate | fClientData
| fCustomSettings | fCloudEndpointBaseUrl | fLocale | fSessionId
| fUnderlyingApplicationId | fAllowCloudServiceOnly.

#[export] Instance Field_eq_dec : EqDecision Field.
Proof. solve_decision. Defined.

Definition field_type (f : Field) : Type :=
  match f with
  | fEngineId => string
  | fIdentity => Identity
  | fCloud => Cloud
  | fAuthDelegate => shared_ptr AuthDelegate
  | fClientData => string
  | fCustomSettings => list (string * string)
  | fCloudEndpointBaseUrl => string
  | fLocale => string
  | fSessionId => string
  | fUnderlyingApplicationId => string
  | fAllowCloudServiceOnly => bool
  end.

Definition getter (f : Field) : Settings -> field_type f :=
  match f with
  | fEngineId => GetEngineId
  | fIdentity => GetIdentity
  | fCloud => GetCloud
  | fAuthDelegate => GetAuthDelegate
  | fClientData => GetClientData
  | fCustomSettings => GetCustomSettings
  | fCloudEndpointBaseUrl => GetCloudEndpointBaseUrl
  | fLocale => GetLocale
  | fSessionId => GetSessionId
  | fUnderlyingApplicationId => GetUnderlyingApplicationId
  | fAllowCloudServiceOnly => GetAllowCloudServiceOnly
  end.

Inductive Setter : Type :=
| sEngineId | sIdentity | sClientData | sCustomSettings | sSessionId
| sCloud | sCloudEndpointBaseUrl | sAuthDelegate
| sUnderlyingApplicationId | sAllowCloudServiceOnly.

Definition target (x : Setter) : Field :=
  match x with
  | sEngineId => fEngineId
  | sIdentity => fIdentity
  | sClientData => fClientData
  | sCustomSettings => fCustomSettings
  | sSessionId => fSessionId
  | sCloud => fCloud
  | sCloudEndpointBaseUrl => fCloudEndpointBaseUrl
  | sAuthDelegate => fAuthDelegate
  | sUnderlyingApplicationId => fUnderlyingApplicationId
  | sAllowCloudServiceOnly => fAllowCloudServiceOnly
  end.

Definition setter (x : Setter)
    : Settings -> field_type (target x) -> Settings :=
  match x with
  | sEngineId => SetEngineId
  | sIdentity => SetIdentity
  | sClientData => SetClientData
  | sCustomSettings => SetCustomSettings
  | sSessionId => SetSessionId
  | sCloud => SetCloud
  | sCloudEndpointBaseUrl => SetCloudEndpointBaseUrl
  | sAuthDelegate => SetAuthDelegate
  | sUnderlyingApplicationId => SetUnderlyingApplicationId
  | sAllowCloudServiceOnly => SetAllowCloudServiceOnly
  end.

(** ** ProtectionEngine::Observer *)

(** The state a callback body runs against (everything the program can
    observe, the objects behind the callback's arguments included). *)
Variable World : Type.

(** The [UNUSED] macro of the included headers, applied to an argument. *)
Variable UNUSED : forall A : Type, A -> Stmt World unit.
Arguments UNUSED {A} _.

(** An invocation of one of the twelve virtual callbacks, with its
    arguments. *)
Inductive Callback : Type :=
| OnGetTemplatesSuccess
    (templateDescriptors : list (shared_ptr TemplateDescriptor))
    (context : shared_ptr void)
| OnGetTemplatesFailure (error : exception_ptr) (context : shared_ptr void)
| OnGetRightsForLabelIdSuccess
    (rights : shared_ptr (list string))
    (context : shared_ptr void)
| OnGetRightsForLabelIdFailure
    (error : exception_ptr) (context : shared_ptr void)
| OnLoadUserCertSuccess (context : shared_ptr void)
| OnLoadUserCertFailure (error : exception_ptr) (context : shared_ptr void)
| OnRegisterContentForTrackingAndRevocationSuccess
    (context : shared_ptr void)
| OnRegisterContentForTrackingAndRevocationFailure
    (error : exception_ptr) (context : shared_ptr void)
| OnRevokeContentSuccess (context : shared_ptr void)
| OnRevokeContentFailure (error : exception_ptr) (context : shared_ptr void)
| OnCreateDelegatedLicensesSuccess
    (delegatedLicenses : list (shared_ptr DelegationLicense))
    (context : shared_ptr void)
| OnCreateDelegatedLicensesFailure
    (error : exception_ptr) (context : shared_ptr void).

(** An observer object is what it runs for each callback; applications
    override the callbacks they care about. *)
Definition Observer : Type := Callback -> Stmt World unit.

(** The bodies the class [Observer] itself gives the callbacks. *)
Definition Observer_base : Observer :=
  fun callback =>
    match callback with
    | OnGetTemplatesSuccess templateDescriptors context =>
        UNUSED templateDescriptors ;; UNUSED context
    | OnGetTemplatesFailure error context =>
        UNUSED error ;; UNUSED context
    | OnGetRightsForLabelIdSuccess rights context =>
        UNUSED rights ;; UNUSED context
    | OnGetRightsForLabelIdFailure error context =>
        UNUSED error ;; UNUSED context
    | OnLoadUserCertSuccess context =>
        UNUSED context
    | OnLoadUserCertFailure error context =>
        UNUSED error ;; UNUSED context
    | OnRegisterContentForTrackingAndRevocationSuccess context =>
        UNUSED context
    | OnRegisterContentForTrackingAndRevocationFailure error context =>
        UNUSED error ;; UNUSED context
    | OnRevokeContentSuccess context =>
        UNUSED context
    | OnRevokeContentFailure error context =>
        UNUSED error ;; UNUSED context
    | OnCreateDelegatedLicensesSuccess delegatedLicenses context =>
        UNUSED delegatedLicenses ;; UNUSED context
    | OnCreateDelegatedLicensesFailure error context =>
        UNUSED error ;; UNUSED context
    end.

(** The context argument of a callback, and its error argument if it has
    one. *)
Definition callback_context (callback : Callback) : shared_ptr void :=
  match callback with
  | OnGetTemplatesSuccess _ context
  | OnGetTemplatesFailure _ context
  | OnGetRightsForLabelIdSuccess _ context
  | OnGetRightsForLabelIdFailure _ context
  | OnLoadUserCertSuccess context
  | OnLoadUserCertFailure _ context
  | OnRegisterContentForTrackingAndRevocationSuccess context
  | OnRegisterContentForTrackingAndRevocationFailure _ context
  | OnRevokeContentSuccess context
  | OnRevokeContentFailure _ context
  | OnCreateDelegatedLicensesSuccess _ context
  | OnCreateDelegatedLicensesFailure _ context => context
  end.

(** ** The member functions the header declares

    One row per member function, in source order: the line of the
    declaration, the class, the name, whether it is [virtual], and whether
    it ends in [= 0] or carries a body in braces. *)

Inductive Class : Type :=
| ProtectionEngine_class | Observer_class | Settings_class.

Inductive MemberKind : Type := Constructor | Destructor | Method.

Inductive Definedness : Type :=
| PureVirtual  (* declared [= 0], no body *)
| InlineBody.  (* defined in the class, [{ ... }] *)

Record Declaration : Type := mkDeclaration {
  decl_line : nat;
  decl_class : Class;
  decl_kind : MemberKind;
  decl_name : string;
  decl_virtual : bool;
  decl_definition : Definedness
}.

#[export] Instance Class_eq_dec : EqDecision Class.
Proof. solve_decision. Defined.
#[export] Instance MemberKind_eq_dec : EqDecision MemberKind.
Proof. solve_decision. Defined.
#[export] Instance Definedness_eq_dec : EqDecision Definedness.
Proof. solve_decision. Defined.
#[export] Instance Declaration_eq_dec : EqDecision Declaration.
Proof. solve_decision. Defined.

Definition Observer_declarations : list Declaration :=
  [ mkDeclaration 73 Observer_class Method "OnGetTemplatesSuccess" true InlineBody;
    mkDeclaration 87 Observer_class Method "OnGetTemplatesFailure" true InlineBody;
    mkDeclaration 101 Observer_class Method "OnGetRightsForLabelIdSuccess" true InlineBody;
    mkDeclaration 115 Observer_class Method "OnGetRightsForLabelIdFailure" true InlineBody;
    mkDeclaration 128 Observer_class Method "OnLoadUserCertSuccess" true InlineBody;
    mkDeclaration 141 Observer_class Method "OnLoadUserCertFailure" true InlineBody;
    mkDeclaration 154 Observer_class Method "OnRegisterContentForTrackingAndRevocationSuccess" true InlineBody;
    mkDeclaration 167 Observer_class Method "OnRegisterContentForTrackingAndRevocationFailure" true InlineBody;
    mkDeclaration 180 Observer_class Method "OnRevokeContentSuccess" true InlineBody;
    mkDeclaration 193 Observer_class Method "OnRevokeContentFailure" true InlineBody;
    mkDeclaration 206 Observer_class Method "OnCreateDelegatedLicensesSuccess" true InlineBody;
    mkDeclaration 220 Observer_class Method "OnCreateDelegatedLicensesFailure" true InlineBody;
    mkDeclaration 225 Observer_class Destructor "~Observer" true InlineBody;
    mkDeclaration 227 Observer_class Constructor "Observer" false InlineBody ].

Definition Settings_declarations : list Declaration :=
  [ mkDeclaration 247 Settings_class Constructor "Settings" false InlineBody;
    mkDeclaration 270 Settings_class Constructor "Settings" false InlineBody;
    mkDeclaration 287 Settings_class Method "GetEngineId" false InlineBody;
    mkDeclaration 294 Settings_class Method "SetEngineId" false InlineBody;
    mkDeclaration 301 Settings_class Method "GetIdentity" false InlineBody;
    mkDeclaration 308 Settings_class Method "SetIdentity" false InlineBody;
    mkDeclaration 315 Settings_class Method "GetClientData" false InlineBody;
    mkDeclaration 322 Settings_class Method "SetClientData" false InlineBody;
    mkDeclaration 329 Settings_class Method "GetLocale" false InlineBody;
    mkDeclaration 336 Settings_class Method "SetCustomSettings" false InlineBody;
    mkDeclaration 343 Settings_class Method "GetCustomSettings" false InlineBody;
    mkDeclaration 350 Settings_class Method "SetSessionId" false InlineBody;
    mkDeclaration 359 Settings_class Method "GetSessionId" false InlineBody;
    mkDeclaration 371 Settings_class Method "SetCloud" false InlineBody;
    mkDeclaration 380 Settings_class Method "GetCloud" false InlineBody;
    mkDeclaration 391 Settings_class Method "SetCloudEndpointBaseUrl" false InlineBody;
    mkDeclaration 400 Settings_class Method "GetCloudEndpointBaseUrl" false InlineBody;
    mkDeclaration 409 Settings_class Method "SetAuthDelegate" false InlineBody;
    mkDeclaration 418 Settings_class Method "GetAuthDelegate" false InlineBody;
    mkDeclaration 425 Settings_class Method "GetUnderlyingApplicationId" false InlineBody;
    mkDeclaration 432 Settings_class Method "SetUnderlyingApplicationId" false InlineBody;
    mkDeclaration 439 Settings_class Method "GetAllowCloudServiceOnly" false InlineBody;
    mkDeclaration 446 Settings_class Method "SetAllowCloudServiceOnly" false InlineBody ].

Definition ProtectionEngine_declarations : list Declaration :=
  [ mkDeclaration 469 ProtectionEngine_class Method "GetSettings" true PureVirtual;
    mkDeclaration 478 ProtectionEngine_class Method "GetTemplatesAsync" true PureVirtual;
    mkDeclaration 489 ProtectionEngine_class Method "GetTemplates" true PureVirtual;
    mkDeclaration 498 ProtectionEngine_class Method "IsFeatureSupported" true PureVirtual;
    mkDeclaration 512 ProtectionEngine_class Method "GetRightsForLabelIdAsync" true PureVirtual;
    mkDeclaration 531 ProtectionEngine_class Method "GetRightsForLabelId" true PureVirtual;
    mkDeclaration 546 ProtectionEngine_class Method "CreateProtectionHandlerForPublishingAsync" true PureVirtual;
    mkDeclaration 559 ProtectionEngine_class Method "CreateProtectionHandlerForPublishing" true PureVirtual;
    mkDeclaration 571 ProtectionEngine_class Method "CreateProtectionHandlerForConsumptionAsync" true PureVirtual;
    mkDeclaration 584 ProtectionEngine_class Method "CreateProtectionHandlerForConsumption" true PureVirtual;
    mkDeclaration 596 ProtectionEngine_class Method "LoadUserCert" true PureVirtual;
    mkDeclaration 607 ProtectionEngine_class Method "LoadUserCertAsync" true PureVirtual;
    mkDeclaration 618 ProtectionEngine_class Method "RegisterContentForTrackingAndRevocation" true PureVirtual;
    mkDeclaration 635 ProtectionEngine_class Method "RegisterContentForTrackingAndRevocationAsync" true PureVirtual;
    mkDeclaration 648 ProtectionEngine_class Method "RevokeContent" true PureVirtual;
    mkDeclaration 661 ProtectionEngine_class Method "RevokeContentAsync" true PureVirtual;
    mkDeclaration 675 ProtectionEngine_class Method "CreateDelegationLicenses" true PureVirtual;
    mkDeclaration 691 ProtectionEngine_class Method "CreateDelegationLicensesAsync" true PureVirtual;
    mkDeclaration 697 ProtectionEngine_class Destructor "~ProtectionEngine" true InlineBody;
    mkDeclaration 699 ProtectionEngine_class Constructor "ProtectionEngine" false InlineBody ].

Definition header_declarations : list Declaration :=
  Observer_declarations ++ Settings_declarations
    ++ ProtectionEngine_declarations.

Definition is_pure_virtual (d : Declaration) : bool :=
  bool_decide (decl_definition d = PureVirtual).

Definition has_body (d : Declaration) : bool :=
  bool_decide (decl_definition d = InlineBody).

(** An operation of the engine interface proper: a member of
    [ProtectionEngine] that is neither its constructor nor its destructor. *)
Definition is_engine_operation (d : Declaration) : bool :=
  bool_decide (decl_class d = ProtectionEngine_class)
  && bool_decide (decl_kind d = Method).

(** ** The asynchronous operations of ProtectionEngine

    The six operations that report to a [ProtectionEngine::Observer], with
    the arguments of their declarations other than the observer and the
    context. *)

Variable DelegationLicenseSettings : Type.

Inductive AsyncOperation : Type :=
| GetTemplatesAsync
| GetRightsForLabelIdAsync
    (documentId labelId ownerEmail delegatedUserEmail : string)
| LoadUserCertAsync
| RegisterContentForTrackingAndRevocationAsync
    (serializedPublishingLicense : list Byte.byte)
    (contentName : string)
    (isOwnerNotificationEnabled : bool)
| RevokeContentAsync (serializedPublishingLicense : list Byte.byte)
| CreateDelegationLicensesAsync (settings : DelegationLicenseSettings).

(** A call: the operation, the observer and the caller's context. *)
Record AsyncCall : Type := mkAsyncCall {
  operation : AsyncOperation;
  observer : shared_ptr Observer;
  context : shared_ptr void
}.

(** What the success callback of each operation receives besides the
    context (the first parameter of [On...Success], if any). *)
Definition success_payload (op : AsyncOperation) : Type :=
  match op with
  | GetTemplatesAsync => list (shared_ptr TemplateDescriptor)
  | GetRightsForLabelIdAsync _ _ _ _ => shared_ptr (list string)
  | LoadUserCertAsync => unit
  | RegisterContentForTrackingAndRevocationAsync _ _ _ => unit
  | RevokeContentAsync _ => unit
  | CreateDelegationLicensesAsync _ => list (shared_ptr DelegationLicense)
  end.

(** The callbacks the documentation of each operation names for it. *)
Definition success_callback (op : AsyncOperation)
    : success_payload op -> shared_ptr void -> Callback :=
  match op with
  | GetTemplatesAsync => OnGetTemplatesSuccess
  | GetRightsForLabelIdAsync _ _ _ _ => OnGetRightsForLabelIdSuccess
  | LoadUserCertAsync => fun _ => OnLoadUserCertSuccess
  | RegisterContentForTrackingAndRevocationAsync _ _ _ =>
      fun _ => OnRegisterContentForTrackingAndRevocationSuccess
  | RevokeContentAsync _ => fun _ => OnRevokeContentSuccess
  | CreateDelegationLicensesAsync _ => OnCreateDelegatedLicensesSuccess
  end.

Definition failure_callback (op : AsyncOperation)
    : exception_ptr -> shared_ptr void -> Callback :=
  match op with
  | GetTemplatesAsync => OnGetTemplatesFailure
  | GetRightsForLabelIdAsync _ _ _ _ => OnGetRightsForLabelIdFailure
  | LoadUserCertAsync => OnLoadUserCertFailure
  | RegisterContentForTrackingAndRevocationAsync _ _ _ =>
      OnRegisterContentForTrackingAndRevocationFailure
  | RevokeContentAsync _ => OnRevokeContentFailure
  | CreateDelegationLicensesAsync _ => OnCreateDelegatedLicensesFailure
  end.

(** [answers callback op]: [callback] is the success or the failure callback
    of [op]. *)
Definition answers (callback : Callback) (op : AsyncOperation) : bool :=
  match op, callback with
  | GetTemplatesAsync, OnGetTemplatesSuccess _ _
  | GetTemplatesAsync, OnGetTemplatesFailure _ _
  | GetRightsForLabelIdAsync _ _ _ _, OnGetRightsForLabelIdSuccess _ _
  | GetRightsForLabelIdAsync _ _ _ _, OnGetRightsForLabelIdFailure _ _
  | LoadUserCertAsync, OnLoadUserCertSuccess _
  | LoadUserCertAsync, OnLoadUserCertFailure _ _
  | RegisterContentForTrackingAndRevocationAsync _ _ _,
      OnRegisterContentForTrackingAndRevocationSuccess _
  | RegisterContentForTrackingAndRevocationAsync _ _ _,
      OnRegisterContentForTrackingAndRevocationFailure _ _
  | RevokeContentAsync _, OnRevokeContentSuccess _
  | RevokeContentAsync _, OnRevokeContentFailure _ _
  | CreateDelegationLicensesAsync _, OnCreateDelegatedLicensesSuccess _ _
  | CreateDelegationLicensesAsync _, OnCreateDelegatedLicensesFailure _ _ =>
      true
  | _, _ => false
  end.

(** Modelled from the spec: the result the absent implementation (the
    pre-built native component behind the pure-virtual operations) reaches
    for an operation.  The spec names two ways an asynchronous operation
    ends: a success callback, or a failure callback with an opaque error
    handle. *)
Inductive Outcome (op : AsyncOperation) : Type :=
| Succeeded (result : success_payload op)
| Failed (error : exception_ptr).
Arguments Succeeded {op} result.
Arguments Failed {op} error.

(** Modelled from the spec: the notification the absent implementation
    sends for a finished call.  "Success/failure callbacks receive back the
    same opaque context pointer the caller supplied to the originating
    call"; "failures are signaled through an opaque error handle passed to
    failure callbacks". *)
Definition notify (call : AsyncCall) (outcome : Outcome (operation call))
    : Callback :=
  match outcome with
  | Succeeded result => success_callback (operation call) result (context call)
  | Failed error => failure_callback (operation call) error (context call)
  end.

(** Modelled from the spec: the bookkeeping of the absent implementation.
    "An async control object is returned per call": controls are numbered,
    and the calls not yet answered are kept under their control.  The spec
    fixes no scheduling or ordering, so none is built in. *)
Record Engine : Type := mkEngine {
  pending : gmap nat AsyncCall;
  next_control : nat
}.

Definition Engine_initial : Engine :=
  {| pending := ∅; next_control := 0 |}.

(** Modelled from the spec: an asynchronous operation is called; the absent
    implementation keeps the call and returns a fresh control to the
    caller. *)
Definition invoke (call : AsyncCall) (e : Engine) : nat * Engine :=
  (next_control e,
   {| pending := <[next_control e := call]> (pending e);
      next_control := S (next_control e) |}).

(** Modelled from the spec: the absent implementation finishes the call
    kept under [control] with the outcome [result] gives for its operation:
    the callback and the observer it is delivered to.  Nothing is delivered
    for a control with no pending call. *)
Definition finish (control : nat) (result : forall op, Outcome op)
    (e : Engine) : option (shared_ptr Observer * Callback) * Engine :=
  match pending e !! control with
  | Some call =>
      (Some (observer call, notify call (result (operation call))),
       {| pending := delete control (pending e);
          next_control := next_control e |})
  | None => (None, e)
  end.

(** Modelled from the spec: what drives the absent implementation, in any
    order: the application calling, the backend finishing. *)
Inductive Action : Type :=
| Invoke (call : AsyncCall)
| Finish (control : nat) (result : forall op, Outcome op).

(** A callback arriving at an observer, in answer to the call that was
    given [control]. *)
Inductive Event : Type :=
| Notified (control : nat) (to : shared_ptr Observer) (callback : Callback).

Definition step (a : Action) (e : Engine) : list Event * Engine :=
  match a with
  | Invoke call => ([], snd (invoke call e))
  | Finish control result =>
      (match fst (finish control result e) with
       | Some (to, callback) => [Notified control to callback]
       | None => []
       end,
       snd (finish control result e))
  end.

(** Modelled from the spec: the events of a run, appended to those already
    seen. *)
Fixpoint run (actions : list Action) (e : Engine) (seen : list Event)
    : list Event * Engine :=
  match actions with
  | [] => (seen, e)
  | a :: rest =>
      let '(events, e') := step a e in
      run rest e' (seen ++ events)
  end.

Definition trace (actions : list Action) : list Event :=
  fst (run actions Engine_initial []).

(** The engine the actions [before] leave, and the control a caller gets
    back for [call] when it calls after them. *)
Definition engine_after (before : list Action) : Engine :=
  snd (run before Engine_initial []).

Definition returned_control (before : list Action) (call : AsyncCall)
    : nat :=
  fst (invoke call (engine_after before)).

(** The calls the application made, in the order it made them. *)
Definition invoked_calls (actions : list Action) : list AsyncCall :=
  omap (fun a => match a with
                 | Invoke call => Some call
                 | Finish _ _ => None
                 end) actions.

(** [finishes control a]: the action [a] finishes the call under
    [control]. *)
Definition finishes (control : nat) (a : Action) : bool :=
  match a with
  | Invoke _ => false
  | Finish c _ => bool_decide (c = control)
  end.

(** ** Predicates the properties are stated with *)

(** The setter [x] and the getter of the member it assigns round-trip. *)
Definition round_trips (x : Setter) : Prop :=
  forall (s : Settings) (v : field_type (target x)),
    getter (target x) (setter x s v) = v.

(** No setter of [Settings] round-trips with its getter. *)
Definition no_round_trip : Prop := forall x : Setter, ~ round_trips x.

(** Every member function of the header is pure virtual and none has a
    body. *)
Definition all_pure_virtual : Prop :=
  forall d : Declaration,
    d ∈ header_declarations -> is_pure_virtual d = true /\ has_body d = false.

(** [answered_by call to callback]: the notification [callback], sent to
    [to], is the answer to [call]. *)
Definition answered_by (call : AsyncCall) (to : shared_ptr Observer)
    (callback : Callback) : Prop :=
  to = observer call
  /\ answers callback (operation call) = true
  /\ callback_context callback = context call.

(** The bookkeeping of the engine agrees with the calls the application
    made: the next control is their number, a pending call is the call made
    under its control, and every callback delivered answers the call made
    under its control. *)
Record agrees (actions : list Action) : Prop := {
  next_is_count :
    next_control (engine_after actions) = length (invoked_calls actions);
  pending_invoked : forall c call,
    pending (engine_after actions) !! c = Some call ->
    invoked_calls actions !! c = Some call;
  notified_invoked : forall c to callback,
    Notified c to callback ∈ trace actions ->
    exists call,
      invoked_calls actions !! c = Some call /\ answered_by call to callback
}.

(** * Properties *)

(** ** Settings: setters and getters *)

Lemma getter_setter_same (x : Setter) (s : Settings)
    (v : field_type (target x)) :
  getter (target x) (setter x s v) = v.
Proof. destruct x; reflexivity. Qed.

Lemma getter_setter_other (x : Setter) (f : Field) (s : Settings)
    (v : field_type (target x)) :
  f <> target x -> getter f (setter x s v) = getter f s.
Proof.
  intros Hother.
  destruct x, f; try reflexivity; exfalso; apply Hother; reflexivity.
Qed.

(** C1. Setter/getter round trip: for every Settings object [s], every
    setter [SetX] of the ten the class has (engine ID, identity, client
    data, custom settings, session ID, cloud, cloud endpoint base URL, auth
    delegate, underlying application ID, allow-cloud-service-only flag) and
    every value [v], [GetX] of the object left by [s.SetX(v)] is [v]. *)
Theorem Settings_set_then_get (s : Settings) :
  (forall v, GetEngineId (SetEngineId s v) = v)
  /\ (forall v, GetIdentity (SetIdentity s v) = v)
  /\ (forall v, GetClientData (SetClientData s v) = v)
  /\ (forall v, GetCustomSettings (SetCustomSettings s v) = v)
  /\ (forall v, GetSessionId (SetSessionId s v) = v)
  /\ (forall v, GetCloud (SetCloud s v) = v)
  /\ (forall v, GetCloudEndpointBaseUrl (SetCloudEndpointBaseUrl s v) = v)
  /\ (forall v, GetAuthDelegate (SetAuthDelegate s v) = v)
  /\ (forall v,
        GetUnderlyingApplicationId (SetUnderlyingApplicationId s v) = v)
  /\ (forall v,
        GetAllowCloudServiceOnly (SetAllowCloudServiceOnly s v) = v).
Proof.
  repeat apply conj; intros v.
  - exact (getter_setter_same sEngineId s v).
  - exact (getter_setter_same sIdentity s v).
  - exact (getter_setter_same sClientData s v).
  - exact (getter_setter_same sCustomSettings s v).
  - exact (getter_setter_same sSessionId s v).
  - exact (getter_setter_same sCloud s v).
  - exact (getter_setter_same sCloudEndpointBaseUrl s v).
  - exact (getter_setter_same sAuthDelegate s v).
  - exact (getter_setter_same sUnderlyingApplicationId s v).
  - exact (getter_setter_same sAllowCloudServiceOnly s v).
Qed.

(** C4. Frame of a setter: for every Settings object [s], every setter
    [SetX] and every value [v], each of the eleven fields other than the one
    [SetX] assigns reads the same through its getter before and after
    [s.SetX(v)]. *)
Theorem Settings_setter_frame (x : Setter) (f : Field) (s : Settings)
    (v : field_type (target x)) :
  f <> target x -> getter f (setter x s v) = getter f s.
Proof. apply getter_setter_other. Qed.

(** ** Settings: constructors *)

(** C2. What the constructors store: [Settings(i, a, c, l)] built from an
    identity reads back [i], [a], [c] and [l] through [GetIdentity],
    [GetAuthDelegate], [GetClientData] and [GetLocale]; [Settings(e, a, c,
    l)] built from an engine ID reads back [e], [a], [c] and [l] through
    [GetEngineId], [GetAuthDelegate], [GetClientData] and [GetLocale]. *)
Theorem Settings_ctor_getters
    (i : Identity) (e : string) (a : shared_ptr AuthDelegate)
    (c l : string) :
  (GetIdentity (Settings_ctor_identity i a c (Some l)) = i
   /\ GetAuthDelegate (Settings_ctor_identity i a c (Some l)) = a
   /\ GetClientData (Settings_ctor_identity i a c (Some l)) = c
   /\ GetLocale (Settings_ctor_identity i a c (Some l)) = l)
  /\ (GetEngineId (Settings_ctor_engineId e a c (Some l)) = e
      /\ GetAuthDelegate (Settings_ctor_engineId e a c (Some l)) = a
      /\ GetClientData (Settings_ctor_engineId e a c (Some l)) = c
      /\ GetLocale (Settings_ctor_engineId e a c (Some l)) = l).
Proof. repeat apply conj; reflexivity. Qed.

(** C8. Defaults of a fresh object: after either constructor
    [GetAllowCloudServiceOnly] is [false] and [GetCloud] is
    [Cloud::Unknown], whatever the arguments; when the locale argument is
    omitted [GetLocale] is ["en-US"]. *)
Theorem Settings_ctor_defaults
    (i : Identity) (e : string) (a : shared_ptr AuthDelegate)
    (c : string) (l : option string) :
  GetAllowCloudServiceOnly (Settings_ctor_identity i a c l) = false
  /\ GetCloud (Settings_ctor_identity i a c l) = Cloud_Unknown
  /\ GetAllowCloudServiceOnly (Settings_ctor_engineId e a c l) = false
  /\ GetCloud (Settings_ctor_engineId e a c l) = Cloud_Unknown
  /\ GetLocale (Settings_ctor_identity i a c None) = "en-US"
  /\ GetLocale (Settings_ctor_engineId e a c None) = "en-US".
Proof. repeat apply conj; reflexivity. Qed.

(** C9. The field the other constructor sets stays at its default: after
    the identity constructor [GetEngineId] is the empty string; after the
    engine-ID constructor [GetIdentity] is the default-constructed
    [Identity]. *)
Theorem Settings_ctor_other_field_default
    (i : Identity) (e : string) (a : shared_ptr AuthDelegate)
    (c : string) (l : option string) :
  GetEngineId (Settings_ctor_identity i a c l) = ""
  /\ GetIdentity (Settings_ctor_engineId e a c l) = Identity_default.
Proof. split; reflexivity. Qed.

(** ** Observer: the default callbacks *)

Section ObserverDefaults.

(** What is assumed of the [UNUSED] macro, whose definition is in an
    included header: applied to an argument it evaluates to nothing, the
    state is as before. *)
Hypothesis UNUSED_discards :
  forall (A : Type) (x : A) (w : World), UNUSED x w = (Returns tt, w).

(** C10. Every default callback of [ProtectionEngine::Observer] is a no-op:
    whatever its arguments and the state it runs in, it returns normally and
    leaves the state, and with it the objects behind its arguments, as they
    were. *)
Theorem Observer_base_no_op (callback : Callback) (w : World) :
  Observer_base callback w = (Returns tt, w).
Proof.
  destruct callback; cbn; unfold mbind, Stmt_bind;
    rewrite ?UNUSED_discards; reflexivity.
Qed.

End ObserverDefaults.

(** ** The declarations *)

(** C6, amended. The member functions that are pure virtual are exactly the
    eighteen operations of [ProtectionEngine] itself; every other member
    function of the header (the callbacks of [Observer], the constructors,
    getters and setters of [Settings], the constructors and destructors)
    has an inline body, and no member function is both. *)
Theorem pure_virtual_only_engine_operations :
  Forall (fun d =>
            is_pure_virtual d = is_engine_operation d
            /\ has_body d = negb (is_pure_virtual d))
         header_declarations
  /\ length (filter (fun d => is_pure_virtual d = true) header_declarations)
     = 18.
Proof.
  split; [| reflexivity].
  unfold header_declarations, Observer_declarations, Settings_declarations,
    ProtectionEngine_declarations.
  repeat (apply Forall_app; split); repeat constructor.
Qed.

(** ** The asynchronous operations *)

Local Open Scope list_scope.

Lemma notify_answered (call : AsyncCall) (outcome : Outcome (operation call)) :
  answered_by call (observer call) (notify call outcome).
Proof.
  destruct call as [op to ctx]; cbn in *.
  destruct outcome; destruct op; repeat split.
Qed.

Lemma run_app (actions1 actions2 : list Action) :
  forall (e : Engine) (seen : list Event),
    run (actions1 ++ actions2) e seen
    = run actions2 (snd (run actions1 e seen)) (fst (run actions1 e seen)).
Proof.
  induction actions1 as [| a rest IH]; intros e seen; cbn [run app].
  - reflexivity.
  - destruct (step a e) as [events e']. apply IH.
Qed.

Lemma trace_snoc (actions : list Action) (a : Action) :
  trace (actions ++ [a])
  = trace actions ++ fst (step a (engine_after actions)).
Proof.
  unfold trace, engine_after. rewrite run_app. cbn [run].
  destruct (step a (snd (run actions Engine_initial []))) as [events e'].
  reflexivity.
Qed.

Lemma engine_after_snoc (actions : list Action) (a : Action) :
  engine_after (actions ++ [a]) = snd (step a (engine_after actions)).
Proof.
  unfold engine_after. rewrite run_app. cbn [run].
  destruct (step a (snd (run actions Engine_initial []))) as [events e'].
  reflexivity.
Qed.

Lemma trace_app_keeps (actions more : list Action) (ev : Event) :
  ev ∈ trace actions -> ev ∈ trace (actions ++ more).
Proof.
  intros Hin. induction more as [| a more IH] using rev_ind.
  - rewrite app_nil_r. exact Hin.
  - rewrite app_assoc, trace_snoc. apply elem_of_app. left. exact IH.
Qed.

Lemma invoked_calls_snoc (actions : list Action) (a : Action) :
  invoked_calls (actions ++ [a])
  = invoked_calls actions
      ++ match a with
         | Invoke call => [call]
         | Finish _ _ => []
         end.
Proof.
  unfold invoked_calls. rewrite omap_app. destruct a; reflexivity.
Qed.

Lemma invoked_calls_middle (before after : list Action) (call : AsyncCall) :
  invoked_calls (before ++ Invoke call :: after)
    !! length (invoked_calls before) = Some call.
Proof.
  unfold invoked_calls. rewrite omap_app. cbn.
  apply list_lookup_middle. reflexivity.
Qed.

Lemma invoked_calls_split (actions : list Action) :
  forall (c : nat) (call : AsyncCall),
    invoked_calls actions !! c = Some call ->
    exists before after,
      actions = before ++ Invoke call :: after
      /\ length (invoked_calls before) = c.
Proof.
  induction actions as [| a actions IH] using rev_ind; intros c call Hc.
  - discriminate Hc.
  - rewrite invoked_calls_snoc in Hc.
    destruct (decide (c < length (invoked_calls actions))) as [Hlt | Hge].
    + rewrite lookup_app_l in Hc by assumption.
      destruct (IH c call Hc) as (before & after & -> & Hlen).
      exists before, (after ++ [a]). split; [| exact Hlen].
      rewrite <- app_assoc. reflexivity.
    + rewrite lookup_app_r in Hc by lia.
      destruct a as [call' | control result].
      * destruct (c - length (invoked_calls actions)) as [| n] eqn:Hdiff;
          [| discriminate Hc].
        injection Hc as ->.
        exists actions, []. split; [reflexivity | lia].
      * destruct (c - length (invoked_calls actions)); discriminate Hc.
Qed.

Lemma agrees_nil : agrees [].
Proof.
  split.
  - reflexivity.
  - intros c call Hc. cbn in Hc. rewrite lookup_empty in Hc. discriminate.
  - intros c to callback Hin. apply elem_of_nil in Hin. contradiction.
Qed.

Lemma agrees_snoc (actions : list Action) (a : Action) :
  agrees actions -> agrees (actions ++ [a]).
Proof.
  intros [Hnext Hpending Hnotified].
  split.
  - rewrite engine_after_snoc, invoked_calls_snoc, length_app.
    destruct a as [call | control result]; cbn.
    + rewrite Hnext. lia.
    + unfold finish. destruct (pending (engine_after actions) !! control);
        cbn; rewrite Hnext; lia.
  - intros c call' Hc. rewrite engine_after_snoc in Hc.
    rewrite invoked_calls_snoc.
    destruct a as [call | control result]; cbn in Hc.
    + destruct (decide (next_control (engine_after actions) = c))
        as [<- | Hne].
      * rewrite lookup_insert_eq in Hc. injection Hc as <-.
        rewrite Hnext. apply list_lookup_middle. reflexivity.
      * rewrite lookup_insert_ne in Hc by assumption.
        apply Hpending in Hc.
        rewrite lookup_app_l by (eapply lookup_lt_Some; eassumption).
        exact Hc.
    + rewrite app_nil_r. apply Hpending.
      unfold finish in Hc.
      destruct (pending (engine_after actions) !! control) eqn:Hcontrol;
        cbn in Hc; [| exact Hc].
      destruct (decide (control = c)) as [<- | Hne].
      * rewrite lookup_delete_eq in Hc. discriminate.
      * rewrite lookup_delete_ne in Hc by assumption. exact Hc.
  - intros c to callback Hin. rewrite trace_snoc in Hin.
    rewrite invoked_calls_snoc.
    apply elem_of_app in Hin as [Hin | Hin].
    + destruct (Hnotified _ _ _ Hin) as (call' & Hcall' & Hanswer).
      exists call'. split; [| exact Hanswer].
      rewrite lookup_app_l by (eapply lookup_lt_Some; eassumption).
      exact Hcall'.
    + destruct a as [call | control result]; cbn in Hin.
      * apply elem_of_nil in Hin. contradiction.
      * unfold finish in Hin.
        destruct (pending (engine_after actions) !! control) as [call |]
          eqn:Hcontrol; cbn in Hin.
        -- apply list_elem_of_singleton in Hin. injection Hin as -> -> ->.
           exists call. rewrite app_nil_r. split.
           ++ apply Hpending. exact Hcontrol.
           ++ apply notify_answered.
        -- apply elem_of_nil in Hin. contradiction.
Qed.

Lemma agrees_all (actions : list Action) : agrees actions.
Proof.
  induction actions as [| a actions IH] using rev_ind.
  - apply agrees_nil.
  - apply agrees_snoc. exact IH.
Qed.

Lemma returned_control_count (before : list Action) (call : AsyncCall) :
  returned_control before call = length (invoked_calls before).
Proof. unfold returned_control. cbn. apply agrees_all. Qed.

Lemma pending_kept (prefix middle : list Action) (c : nat)
    (call : AsyncCall) :
  Forall (fun a => finishes c a = false) middle ->
  pending (engine_after prefix) !! c = Some call ->
  c < next_control (engine_after prefix) ->
  pending (engine_after (prefix ++ middle)) !! c = Some call
  /\ c < next_control (engine_after (prefix ++ middle)).
Proof.
  intros Hmiddle Hc Hlt.
  induction middle as [| a middle IH] using rev_ind.
  - rewrite app_nil_r. split; assumption.
  - apply Forall_app in Hmiddle as [Hmiddle Ha].
    destruct (IH Hmiddle) as [Hc' Hlt'].
    rewrite app_assoc, engine_after_snoc.
    inversion Ha as [| a' rest Hfin _]; subst.
    destruct a as [call' | control result]; cbn.
    + split; [| lia].
      rewrite lookup_insert_ne by lia. exact Hc'.
    + cbn in Hfin. apply bool_decide_eq_false in Hfin.
      unfold finish.
      destruct (pending (engine_after (prefix ++ middle)) !! control);
        cbn; split; try assumption.
      rewrite lookup_delete_ne by assumption. exact Hc'.
Qed.

(** C3. The context comes back unchanged.  Let an application call an
    asynchronous operation with an observer and a context pointer [ctx],
    after any earlier actions, and get a control back.
    - Every callback delivered in answer to that control, whatever happens
      afterwards, goes to the observer of the call, is the success or the
      failure callback of the operation called, and carries [ctx].
    - When the call is finished, with whatever outcome, its callback is
      delivered, carrying [ctx].
    - Callbacks are delivered only in answer to calls the application
      made. *)
Theorem callback_context_is_call_context :
  (forall (before : list Action) (call : AsyncCall) (rest : list Action)
          (to : shared_ptr Observer) (callback : Callback),
      Notified (returned_control before call) to callback
        ∈ trace (before ++ Invoke call :: rest) ->
      to = observer call
      /\ answers callback (operation call) = true
      /\ callback_context callback = context call)
  /\ (forall (before : list Action) (call : AsyncCall)
             (middle : list Action) (result : forall op, Outcome op)
             (after : list Action),
         Forall (fun a => finishes (returned_control before call) a = false)
           middle ->
         Notified (returned_control before call) (observer call)
           (notify call (result (operation call)))
           ∈ trace (before ++ Invoke call :: middle
                      ++ Finish (returned_control before call) result
                      :: after)
         /\ callback_context (notify call (result (operation call)))
            = context call)
  /\ (forall (actions : list Action) (control : nat)
             (to : shared_ptr Observer) (callback : Callback),
         Notified control to callback ∈ trace actions ->
         exists before call after,
           actions = before ++ Invoke call :: after
           /\ returned_control before call = control).
Proof.
  repeat apply conj.
  - intros before call rest to callback Hin.
    destruct (agrees_all (before ++ Invoke call :: rest)) as [_ _ Hnotified].
    destruct (Hnotified _ _ _ Hin) as (call' & Hcall' & Hanswer).
    rewrite returned_control_count, invoked_calls_middle in Hcall'.
    injection Hcall' as <-. exact Hanswer.
  - intros before call middle result after Hmiddle.
    split; [| apply notify_answered].
    set (c := returned_control before call) in *.
    assert (Hstart : pending (engine_after (before ++ [Invoke call])) !! c
                     = Some call
                     /\ c < next_control
                              (engine_after (before ++ [Invoke call]))).
    { rewrite engine_after_snoc. cbn. split; [| unfold c; cbn; lia].
      apply lookup_insert_eq. }
    destruct Hstart as [Hc Hlt].
    destruct (pending_kept _ middle c call Hmiddle Hc Hlt) as [Hc' _].
    replace (before ++ Invoke call :: middle ++ Finish c result :: after)
      with ((((before ++ [Invoke call]) ++ middle) ++ [Finish c result])
              ++ after)
      by (rewrite <- !app_assoc; reflexivity).
    apply trace_app_keeps. rewrite trace_snoc. apply elem_of_app. right.
    cbn [step]. unfold finish. rewrite Hc'. cbn [fst].
    apply list_elem_of_singleton. reflexivity.
  - intros actions control to callback Hin.
    destruct (agrees_all actions) as [_ _ Hnotified].
    destruct (Hnotified _ _ _ Hin) as (call & Hcall & _).
    destruct (invoked_calls_split actions control call Hcall)
      as (before & after & Hactions & Hlen).
    exists before, call, after. split; [exact Hactions |].
    rewrite returned_control_count. exact Hlen.
Qed.

(** * Further properties of the inline code *)

(** ** Sequences of setter calls *)

(** A call of a setter: which one, and its argument. *)
Definition SetterCall : Type := { x : Setter & field_type (target x) }.

Definition setter_call (x : Setter) (v : field_type (target x))
    : SetterCall :=
  existT x v.

(** [s.SetX(v)] for the call [c], and a sequence of such statements run
    from left to right on the same object. *)
Definition call_setter (s : Settings) (c : SetterCall) : Settings :=
  setter (projT1 c) s (projT2 c).

Definition call_setters (s : Settings) (calls : list SetterCall)
    : Settings :=
  fold_left call_setter calls s.

(** A copy made through the public interface alone: the identity
    constructor on what four getters return, then the seven setters of the
    members that constructor does not take, each on what its getter
    returns. *)
Definition copy_by_accessors (s : Settings) : Settings :=
  let s0 :=
    Settings_ctor_identity (GetIdentity s) (GetAuthDelegate s)
      (GetClientData s) (Some (GetLocale s)) in
  let s1 := SetEngineId s0 (GetEngineId s) in
  let s2 := SetCloud s1 (GetCloud s) in
  let s3 := SetCustomSettings s2 (GetCustomSettings s) in
  let s4 := SetCloudEndpointBaseUrl s3 (GetCloudEndpointBaseUrl s) in
  let s5 := SetSessionId s4 (GetSessionId s) in
  let s6 := SetUnderlyingApplicationId s5 (GetUnderlyingApplicationId s) in
  SetAllowCloudServiceOnly s6 (GetAllowCloudServiceOnly s).

(** Callbacks delivered one after the other to an observer. *)
Fixpoint deliver_all (o : Observer) (callbacks : list Callback)
    : Stmt World unit :=
  match callbacks with
  | [] => mret tt
  | callback :: rest => o callback ;; deliver_all o rest
  end.

Lemma Settings_extensional (s1 s2 : Settings) :
  (forall f : Field, getter f s1 = getter f s2) -> s1 = s2.
Proof.
  intros Hsame. destruct s1, s2.
  pose proof (Hsame fEngineId) as H1.
  pose proof (Hsame fIdentity) as H2.
  pose proof (Hsame fCloud) as H3.
  pose proof (Hsame fAuthDelegate) as H4.
  pose proof (Hsame fClientData) as H5.
  pose proof (Hsame fCustomSettings) as H6.
  pose proof (Hsame fCloudEndpointBaseUrl) as H7.
  pose proof (Hsame fLocale) as H8.
  pose proof (Hsame fSessionId) as H9.
  pose proof (Hsame fUnderlyingApplicationId) as H10.
  pose proof (Hsame fAllowCloudServiceOnly) as H11.
  cbn in *. congruence.
Qed.

Lemma locale_not_a_target (x : Setter) : fLocale <> target x.
Proof. destruct x; discriminate. Qed.

Lemma call_setters_app (s : Settings) (calls1 calls2 : list SetterCall) :
  call_setters s (calls1 ++ calls2)
  = call_setters (call_setters s calls1) calls2.
Proof. unfold call_setters. apply fold_left_app. Qed.

Lemma call_setters_untouched (f : Field) (calls : list SetterCall) :
  forall s : Settings,
    Forall (fun c => f <> target (projT1 c)) calls ->
    getter f (call_setters s calls) = getter f s.
Proof.
  induction calls as [| c rest IH]; intros s Hnone; cbn.
  - reflexivity.
  - inversion Hnone as [| c' rest' Hc Hrest]; subst.
    unfold call_setters in IH. rewrite IH by assumption.
    unfold call_setter. apply getter_setter_other. assumption.
Qed.

(** C7, amended. The supplied source does yield testable properties, from
    its inline code: every setter of [Settings] round-trips with the getter
    of the member it assigns, and [GetLocale] is invariant under every
    sequence of setter calls.  The member functions declared without a
    body, for which the header holds no code, are exactly the operations of
    [ProtectionEngine] itself. *)
Theorem inline_code_is_testable :
  (forall x : Setter, round_trips x)
  /\ (forall (s : Settings) (calls : list SetterCall),
        GetLocale (call_setters s calls) = GetLocale s)
  /\ Forall (fun d => has_body d = false <-> is_engine_operation d = true)
            header_declarations.
Proof.
  repeat apply conj.
  - intros x s v. apply getter_setter_same.
  - intros s calls. apply (call_setters_untouched fLocale).
    apply Forall_forall. intros c _. apply locale_not_a_target.
  - unfold header_declarations, Observer_declarations,
      Settings_declarations, ProtectionEngine_declarations.
    repeat (apply Forall_app; split);
      repeat (constructor; [cbv; split; congruence |]); constructor.
Qed.

(** X1. Setters of different members commute: calling [SetX(v)] then
    [SetY(w)] leaves the same object as [SetY(w)] then [SetX(v)]. *)
Theorem Settings_setters_commute (x y : Setter) (s : Settings)
    (v : field_type (target x)) (w : field_type (target y)) :
  target x <> target y ->
  setter y (setter x s v) w = setter x (setter y s w) v.
Proof.
  intros Hdiff.
  destruct x, y; try reflexivity; exfalso; apply Hdiff; reflexivity.
Qed.

(** X2. The last write wins: [SetX(v1)] followed by [SetX(v2)] leaves the
    same object as [SetX(v2)] alone. *)
Theorem Settings_setter_overwrites (x : Setter) (s : Settings)
    (v1 v2 : field_type (target x)) :
  setter x (setter x s v1) v2 = setter x s v2.
Proof. destruct x; reflexivity. Qed.

(** X3. [SetX(v)] leaves the whole object as it was exactly when [GetX]
    already returned [v]. *)
Theorem Settings_setter_unchanged_iff (x : Setter) (s : Settings)
    (v : field_type (target x)) :
  setter x s v = s <-> getter (target x) s = v.
Proof.
  split.
  - intros Hsame. rewrite <- Hsame at 1. apply getter_setter_same.
  - intros <-. destruct x, s; reflexivity.
Qed.

(** X4. The eleven getters determine the object: two Settings objects on
    which every getter returns the same value are equal. *)
Theorem Settings_getters_determine (s1 s2 : Settings) :
  (forall f : Field, getter f s1 = getter f s2) -> s1 = s2.
Proof. apply Settings_extensional. Qed.

(** X5. The locale is fixed at construction: whatever setters are called,
    in whatever order and with whatever arguments, [GetLocale] returns what
    it returned before. *)
Theorem Settings_locale_never_changes (s : Settings)
    (calls : list SetterCall) :
  GetLocale (call_setters s calls) = GetLocale s.
Proof.
  apply (call_setters_untouched fLocale).
  apply Forall_forall. intros c _. apply locale_not_a_target.
Qed.

(** X6. After any sequence of setter calls, [GetX] returns the argument of
    the last [SetX] in the sequence, whatever was called before it and
    whatever setters of other members are called after it. *)
Theorem Settings_last_write_is_read (x : Setter)
    (v : field_type (target x)) (s : Settings)
    (earlier later : list SetterCall) :
  Forall (fun c => target x <> target (projT1 c)) later ->
  getter (target x)
    (call_setters s (earlier ++ setter_call x v :: later)) = v.
Proof.
  intros Hlater.
  rewrite call_setters_app.
  change (setter_call x v :: later)
    with (([setter_call x v] ++ later)%list).
  rewrite call_setters_app.
  rewrite call_setters_untouched by assumption.
  cbn. unfold call_setter. cbn. apply getter_setter_same.
Qed.

(** X7. The public interface is complete: the identity constructor called
    on what the getters of an object return, followed by the setters of the
    remaining members on what their getters return, rebuilds the object. *)
Theorem Settings_copy_by_accessors (s : Settings) :
  copy_by_accessors s = s.
Proof. destruct s; reflexivity. Qed.

(** X8. The two constructors differ in the engine ID and the identity
    only: the engine-ID constructor builds what the identity constructor
    builds from a default identity followed by [SetEngineId], and the
    identity constructor builds what the engine-ID constructor builds from
    the empty engine ID followed by [SetIdentity]. *)
Theorem Settings_ctors_agree
    (i : Identity) (e : string) (a : shared_ptr AuthDelegate)
    (c : string) (l : option string) :
  Settings_ctor_engineId e a c l
  = SetEngineId (Settings_ctor_identity Identity_default a c l) e
  /\ Settings_ctor_identity i a c l
     = SetIdentity (Settings_ctor_engineId "" a c l) i.
Proof. split; reflexivity. Qed.

(** X9. A setter erases exactly its own member: two objects become equal
    under the same [SetX(v)] exactly when they agreed on every other
    member. *)
Theorem Settings_setter_equalizes_iff (x : Setter) (s1 s2 : Settings)
    (v : field_type (target x)) :
  setter x s1 v = setter x s2 v
  <-> (forall f : Field, f <> target x -> getter f s1 = getter f s2).
Proof.
  split.
  - intros Hsame f Hother.
    rewrite <- (getter_setter_other x f s1 v Hother).
    rewrite <- (getter_setter_other x f s2 v Hother).
    rewrite Hsame. reflexivity.
  - intros Hothers. apply Settings_extensional. intros f.
    destruct (decide (f = target x)) as [-> | Hother].
    + rewrite !getter_setter_same. reflexivity.
    + rewrite !getter_setter_other by assumption. apply Hothers, Hother.
Qed.

(** X10. An observer that overrides nothing ignores everything it is sent:
    any sequence of callbacks delivered to the default bodies returns
    normally and leaves the state as it was, provided [UNUSED] drops its
    argument. *)
Theorem Observer_base_ignores_all (callbacks : list Callback) (w : World) :
  (forall (A : Type) (x : A) (w' : World), UNUSED x w' = (Returns tt, w')) ->
  deliver_all Observer_base callbacks w = (Returns tt, w).
Proof.
  intros Hdrop.
  induction callbacks as [| callback rest IH]; cbn.
  - reflexivity.
  - unfold mbind, Stmt_bind at 1.
    assert (Hone : Observer_base callback w = (Returns tt, w))
      by (destruct callback; cbn; unfold mbind, Stmt_bind;
          rewrite ?Hdrop; reflexivity).
    rewrite Hone. exact IH.
Qed.

End Header.

Arguments Settings_ctor_identity {Identity Cloud} Cloud_Unknown {AuthDelegate}
  identity authDelegate clientData locale.
Arguments Settings_ctor_engineId {Identity} Identity_default {Cloud}
  Cloud_Unknown {AuthDelegate} engineId authDelegate clientData locale.
Arguments GetEngineId {Identity Cloud AuthDelegate} this.
Arguments SetEngineId {Identity Cloud AuthDelegate} this engineId.
Arguments GetLocale {Identity Cloud AuthDelegate} this.
Arguments GetSessionId {Identity Cloud AuthDelegate} this.
Arguments SetSessionId {Identity Cloud AuthDelegate} this sessionId.
Arguments getter {Identity Cloud AuthDelegate} f _.
Arguments setter {Identity Cloud AuthDelegate} x _ _.
Arguments OnGetTemplatesSuccess {TemplateDescriptor DelegationLicense}
  templateDescriptors context.
Arguments OnGetTemplatesFailure {TemplateDescriptor DelegationLicense}
  error context.
Arguments OnLoadUserCertFailure {TemplateDescriptor DelegationLicense}
  error context.
Arguments Observer_base {TemplateDescriptor DelegationLicense World}
  UNUSED _ _.
Arguments GetTemplatesAsync {DelegationLicenseSettings}.
Arguments LoadUserCertAsync {DelegationLicenseSettings}.
Arguments mkAsyncCall {TemplateDescriptor DelegationLicense World
  DelegationLicenseSettings} operation observer context.
Arguments Invoke {TemplateDescriptor DelegationLicense World
  DelegationLicenseSettings} call.
Arguments Finish {TemplateDescriptor DelegationLicense World
  DelegationLicenseSettings} control result.
Arguments returned_control {TemplateDescriptor DelegationLicense World
  DelegationLicenseSettings} before call.
Arguments Notified {TemplateDescriptor DelegationLicense World}
  control to callback.
Arguments trace {TemplateDescriptor DelegationLicense World
  DelegationLicenseSettings} actions.
Arguments observer {TemplateDescriptor DelegationLicense World
  DelegationLicenseSettings} _.
Arguments context {TemplateDescriptor DelegationLicense World
  DelegationLicenseSettings} _.
Arguments operation {TemplateDescriptor DelegationLicense World
  DelegationLicenseSettings} _.
Arguments answers {TemplateDescriptor DelegationLicense
  DelegationLicenseSettings} callback op.
Arguments callback_context {TemplateDescriptor DelegationLicense} callback.
Arguments Succeeded {TemplateDescriptor DelegationLicense
  DelegationLicenseSettings op} result.
Arguments Failed {TemplateDescriptor DelegationLicense
  DelegationLicenseSettings op} error.

(** * The properties at concrete inputs

    The included classes are instantiated by small stand-ins: an identity is
    an e-mail address, the default one the empty address; the clouds are
    [Unknown] and [Custom]; the classes only pointed to are [unit]. *)

Inductive ExampleCloud : Type := ExampleCloud_Unknown | ExampleCloud_Custom.

(** [Settings(Identity("alice@contoso.com"), delegate, "client data")], the
    locale omitted, the delegate at address 16. *)
Definition example_settings : Settings string ExampleCloud unit :=
  Settings_ctor_identity ExampleCloud_Unknown
    "alice@contoso.com" (Some 16%N) "client data" None.

(** The [UNUSED] macro as a cast to [void]: the argument is dropped. *)
Definition example_UNUSED (A : Type) (x : A) : Stmt nat unit := mret tt.

(** Two observers and two contexts, by address. *)
Definition example_observer_a : shared_ptr (Observer unit unit nat) :=
  Some 100%N.
Definition example_observer_b : shared_ptr (Observer unit unit nat) :=
  Some 200%N.
Definition example_context_a : shared_ptr void := Some 1%N.
Definition example_context_b : shared_ptr void := Some 2%N.

(** [GetTemplatesAsync(a, ctx_a)], then [LoadUserCertAsync(b, ctx_b)]; the
    second call fails with the exception at address 77 before the first
    succeeds with one template. *)
Definition example_actions : list (Action unit unit nat unit) :=
  [ Invoke (mkAsyncCall GetTemplatesAsync
              example_observer_a example_context_a);
    Invoke (mkAsyncCall LoadUserCertAsync
              example_observer_b example_context_b);
    Finish 1 (fun op => Failed (Some 77%N));
    Finish 0 (fun op =>
                match op return Outcome unit unit unit op with
                | GetTemplatesAsync =>
                    Succeeded (op := GetTemplatesAsync) [Some 5%N]
                | _ => Failed None
                end) ].

(** The failure callback the second call is answered with. *)
Definition example_failure : Callback unit unit :=
  OnLoadUserCertFailure (Some 77%N) example_context_b.

(** The two calls of [example_actions]. *)
Definition example_call_a : AsyncCall unit unit nat unit :=
  mkAsyncCall GetTemplatesAsync example_observer_a example_context_a.
Definition example_call_b : AsyncCall unit unit nat unit :=
  mkAsyncCall LoadUserCertAsync example_observer_b example_context_b.

Example example_trace :
  trace example_actions =
  [ Notified 1 example_observer_b example_failure;
    Notified 0 example_observer_a
      (OnGetTemplatesSuccess [Some 5%N] example_context_a) ].
Proof. vm_compute. reflexivity. Qed.

(** The frame of [SetEngineId] on the locale of [example_settings]. *)
Lemma Settings_setter_frame_witness :
  fLocale <> target sEngineId
  /\ GetLocale (SetEngineId example_settings "engine-42")
     = GetLocale example_settings.
Proof.
  split; [discriminate |].
  apply (Settings_setter_frame string ExampleCloud unit
           sEngineId fLocale example_settings "engine-42").
  discriminate.
Defined.

(** The default [OnGetTemplatesFailure] run in state 5. *)
Lemma Observer_base_no_op_witness :
  (forall (A : Type) (x : A) (w : nat),
      example_UNUSED A x w = (Returns tt, w))
  /\ Observer_base example_UNUSED
       (OnGetTemplatesFailure (TemplateDescriptor := unit)
          (DelegationLicense := unit) (Some 77%N) example_context_a) 5
     = (Returns tt, 5).
Proof.
  split; [reflexivity |].
  apply (Observer_base_no_op unit unit nat example_UNUSED).
  reflexivity.
Defined.

(** The second call of [example_actions], made after the first: it gets
    control 1, and the failure callback delivered under control 1 goes to
    its observer and carries its context. *)
Lemma callback_context_is_call_context_witness :
  returned_control [Invoke example_call_a] example_call_b = 1
  /\ Notified 1 example_observer_b example_failure ∈ trace example_actions
  /\ example_observer_b = observer example_call_b
  /\ answers example_failure (operation example_call_b) = true
  /\ callback_context example_failure = context example_call_b.
Proof.
  assert (Hin : Notified 1 example_observer_b example_failure
                ∈ trace example_actions)
    by (vm_compute; repeat constructor).
  split; [reflexivity |]. split; [exact Hin |].
  exact (proj1 (callback_context_is_call_context unit unit nat unit)
           [Invoke example_call_a] example_call_b
           [ Finish 1 (fun op => Failed (Some 77%N));
             Finish 0 (fun op =>
                         match op return Outcome unit unit unit op with
                         | GetTemplatesAsync =>
                             Succeeded (op := GetTemplatesAsync) [Some 5%N]
                         | _ => Failed None
                         end) ]
           example_observer_b example_failure Hin).
Defined.

(** C6, counterexample. [Settings::SetEngineId] (line 294) is not pure
    virtual and has a body, and the body does something: on
    [example_settings], whose engine ID is empty, it makes [GetEngineId]
    return ["engine-42"]. *)
Lemma SetEngineId_not_pure_virtual :
  mkDeclaration 294 Settings_class Method "SetEngineId" false InlineBody
    ∈ header_declarations
  /\ is_pure_virtual
       (mkDeclaration 294 Settings_class Method "SetEngineId" false
          InlineBody) = false
  /\ has_body
       (mkDeclaration 294 Settings_class Method "SetEngineId" false
          InlineBody) = true
  /\ GetEngineId example_settings = ""
  /\ GetEngineId (SetEngineId example_settings "engine-42") = "engine-42"
  /\ ~ all_pure_virtual.
Proof.
  assert (Hin : mkDeclaration 294 Settings_class Method "SetEngineId" false
                  InlineBody ∈ header_declarations)
    by (vm_compute; repeat constructor).
  repeat apply conj; try reflexivity; [exact Hin |].
  intros Hall. destruct (Hall _ Hin) as [Hpure _]. discriminate Hpure.
Qed.

(** C7, counterexample. [SetSessionId] and [GetSessionId] round-trip: on
    [example_settings] the session ID set is the session ID read, and so it
    is on every object; it is not the case that no setter round-trips. *)
Lemma SetSessionId_round_trips :
  GetSessionId (SetSessionId example_settings "session-7") = "session-7"
  /\ round_trips string ExampleCloud unit sSessionId
  /\ ~ no_round_trip string ExampleCloud unit.
Proof.
  assert (Hround : round_trips string ExampleCloud unit sSessionId)
    by (intros s v; reflexivity).
  repeat apply conj; [reflexivity | exact Hround |].
  intros Hnone. exact (Hnone sSessionId Hround).
Qed.

Arguments setter_call {Identity Cloud AuthDelegate} x v.
Arguments call_setters {Identity Cloud AuthDelegate} s calls.
Arguments deliver_all {TemplateDescriptor DelegationLicense World} o callbacks.

(** * The further properties at concrete inputs *)

(** Setter calls before and after a [SetSessionId("session-7")]. *)
Definition example_earlier : list (SetterCall string ExampleCloud unit) :=
  [ setter_call sSessionId "session-1"; setter_call sEngineId "engine-1" ].

Definition example_later : list (SetterCall string ExampleCloud unit) :=
  [ setter_call sEngineId "engine-42";
    setter_call sAllowCloudServiceOnly true ].

(** A success and a failure callback, as delivered to an observer. *)
Definition example_callbacks : list (Callback unit unit) :=
  [ OnGetTemplatesSuccess [Some 5%N] example_context_a; example_failure ].

(** [SetEngineId] and [SetSessionId] on [example_settings], both orders. *)
Lemma Settings_setters_commute_witness :
  target sEngineId <> target sSessionId
  /\ SetSessionId (SetEngineId example_settings "engine-42") "session-7"
     = SetEngineId (SetSessionId example_settings "session-7") "engine-42".
Proof.
  split; [discriminate |].
  apply (Settings_setters_commute string ExampleCloud unit
           sEngineId sSessionId example_settings "engine-42" "session-7").
  discriminate.
Defined.

(** [example_settings] and the object left by setting its engine ID to the
    empty string it already has. *)
Lemma Settings_getters_determine_witness :
  (forall f : Field,
      getter f example_settings = getter f (SetEngineId example_settings ""))
  /\ example_settings = SetEngineId example_settings "".
Proof.
  assert (Hsame : forall f : Field,
             getter f example_settings
             = getter f (SetEngineId example_settings ""))
    by (intros f; destruct f; reflexivity).
  split; [exact Hsame |].
  exact (Settings_getters_determine string ExampleCloud unit
           example_settings (SetEngineId example_settings "") Hsame).
Defined.

(** The session ID read after five setter calls, the third of which is the
    last [SetSessionId]. *)
Lemma Settings_last_write_is_read_witness :
  Forall (fun c => target sSessionId <> target (projT1 c)) example_later
  /\ GetSessionId
       (call_setters example_settings
          (example_earlier
             ++ setter_call sSessionId "session-7" :: example_later)%list)
     = "session-7".
Proof.
  assert (Hlater : Forall (fun c => target sSessionId <> target (projT1 c))
                     example_later)
    by (repeat constructor; discriminate).
  split; [exact Hlater |].
  exact (Settings_last_write_is_read string ExampleCloud unit
           sSessionId "session-7" example_settings
           example_earlier example_later Hlater).
Defined.

(** Two callbacks delivered to the default bodies in state 5. *)
Lemma Observer_base_ignores_all_witness :
  (forall (A : Type) (x : A) (w : nat),
      example_UNUSED A x w = (Returns tt, w))
  /\ deliver_all (Observer_base example_UNUSED) example_callbacks 5
     = (Returns tt, 5).
Proof.
  split; [reflexivity |].
  apply (Observer_base_ignores_all unit unit nat example_UNUSED
           example_callbacks 5).
  reflexivity.
Defined.
